(** * The jukebox web API ([api.py]): lookup, duration policy and enqueue

    A shallow embedding of the three request handlers of [api.py] and of the
    two pure helpers they share, followed by the properties of the
    specification that concern them.

    Python values are modelled by small inductive types, dictionaries by
    association lists in insertion order, exceptions by a result type.  The
    two external collaborators (the metadata extractor and the
    download-and-transcode tool of [youtube_dl]) and the file system are
    parameters of the handlers: every theorem holds for all of them.
    Logging is not modelled. *)

From Stdlib Require Import ZArith String Ascii List Bool Lia.
From Stdlib Require Import DecimalString DecimalPos DecimalZ.
Import ListNotations.

Local Open Scope Z_scope.
Local Open Scope string_scope.

(** ** Python values, dictionaries and exceptions *)

Module Py.

(** The values found in the fields of an extractor entry: [None], an
    integer or a string.  Floating-point values are left out: durations are
    whole seconds here, and nothing below speaks of a fractional one. *)
Inductive scalar : Type :=
| SNone
| SInt (z : Z)
| SStr (s : string).

(** A dictionary with string keys, in insertion order. *)
Definition dict (V : Type) : Type := list (string * V).

(** The values of a response body. *)
Inductive pyval : Type :=
| PBool (b : bool)
| PScalar (v : scalar)
| PDict (d : dict scalar).

Definition PStr (s : string) : pyval := PScalar (SStr s).

Inductive exn : Type :=
| KeyError (key : string)
| IndexError
| TypeError
| ExternalError (msg : string).

Inductive result (A : Type) : Type :=
| Ok (a : A)
| Raise (e : exn).
Arguments Ok {A} a.
Arguments Raise {A} e.

(** [d.get(k)] as an option. *)
Fixpoint lookup {V : Type} (d : dict V) (k : string) : option V :=
  match d with
  | [] => None
  | (k', v) :: rest => if String.eqb k' k then Some v else lookup rest k
  end.

(** [d[k]]: raises [KeyError] on a missing key. *)
Definition getitem {V : Type} (d : dict V) (k : string) : result V :=
  match lookup d k with
  | Some v => Ok v
  | None => Raise (KeyError k)
  end.

(** [d.get(k)]: [None] on a missing key. *)
Definition get (d : dict scalar) (k : string) : scalar :=
  match lookup d k with
  | Some v => v
  | None => SNone
  end.

(** [l[0]]: raises [IndexError] on the empty list. *)
Definition first {A : Type} (l : list A) : result A :=
  match l with
  | [] => Raise IndexError
  | x :: _ => Ok x
  end.

Definition keys {V : Type} (d : dict V) : list string := map fst d.

(** [str(n)] of an integer: decimal digits, a leading minus sign for a
    negative number. *)
Definition str_of_int (z : Z) : string :=
  NilZero.string_of_int (Z.to_int z).

(** [f"{v}"] of a scalar. *)
Definition str (v : scalar) : string :=
  match v with
  | SNone => "None"
  | SInt z => str_of_int z
  | SStr s => s
  end.

Fixpoint zeros (n : nat) : string :=
  match n with
  | O => EmptyString
  | S n' => String "0" (zeros n')
  end.

(** [f"{z:0w}"] of an integer: the digits are padded with zeros, after the
    sign, up to the width [w]. *)
Definition format_zero_padded (width : nat) (z : Z) : string :=
  let digits := str_of_int (Z.abs z) in
  let sign := if (z <? 0)%Z then "-" else EmptyString in
  sign ++ zeros (width - String.length sign - String.length digits)%nat
       ++ digits.

(** Truth value of a response value, as [not v] tests it. *)
Definition truthy (v : pyval) : bool :=
  match v with
  | PBool b => b
  | PScalar SNone => false
  | PScalar (SInt z) => negb (z =? 0)%Z
  | PScalar (SStr s) => negb (String.eqb s EmptyString)
  | PDict d => match d with [] => false | _ => true end
  end.

(** A duration passed where an integer is awaited: [None > n] and
    ["text" > n] raise [TypeError]. *)
Definition as_int (v : scalar) : result Z :=
  match v with
  | SInt z => Ok z
  | SNone => Raise TypeError
  | SStr _ => Raise TypeError
  end.

End Py.

Import Py.

(** [needle] occurs in [hay]. *)
Definition contains (needle hay : string) : Prop :=
  exists pre post, hay = pre ++ needle ++ post.

(** ** The duration policy *)

(** Videos longer than this (in seconds) will be refused. *)
Definition MAX_VIDEO_DURATION : Z := 12 * 60.

(** Convert seconds to minutes:seconds string. *)
Definition s2m (seconds : Z) : string :=
  let minutes := seconds / 60 in
  str_of_int minutes ++ ":" ++ format_zero_padded 2 (seconds - minutes * 60).

Definition response_for_duration (duration : Z) : dict pyval :=
  if (duration >? MAX_VIDEO_DURATION)%Z then
    [ ("ok", PBool false);
      ("reason",
        PStr ("Video is too long at " ++ str_of_int duration ++ "s ("
              ++ s2m duration ++ "). "
              ++ "Maximum duration is " ++ str_of_int MAX_VIDEO_DURATION ++ "s "
              ++ "(" ++ s2m MAX_VIDEO_DURATION ++ ").")) ]
  else
    [ ("ok", PBool true) ].

(** The rendering the specification describes for a number of seconds:
    the quotient by 60, a colon, and the remainder written with exactly two
    digits. *)
Definition digit (n : Z) : ascii := ascii_of_nat (48 + Z.to_nat n).

Definition two_digits (n : Z) : string :=
  String (digit (n / 10)) (String (digit (n mod 10)) EmptyString).

Definition minutes_seconds (s : Z) : string :=
  str_of_int (s / 60) ++ ":" ++ two_digits (s mod 60).

(** ** The external world

    A path built as [Path(s)] or [p / name]; how two paths denote the same
    file is left to the file system. *)
Inductive Path : Type :=
| PathOf (s : string)
| PathDiv (p : Path) (name : string).

(** What the extractor returns: a dictionary whose ["entries"] key, when
    present, holds the list of result entries, and whose other keys hold
    scalars. *)
Record InfoDict : Type := {
  fields : dict scalar;
  entries : option (list (dict scalar))
}.

(** The collaborators of the handlers, over a file system of type [FS]:
    [ytdl.extract_info(term, download=False)], [ytdl.download(urls)], which
    may change the file system, and [Path.exists]. *)
Record External (FS : Type) : Type := {
  extract_info : string -> result InfoDict;
  download : list string -> FS -> result unit * FS;
  path_exists : FS -> Path -> bool
}.
Arguments extract_info {FS} _ _.
Arguments download {FS} _ _ _.
Arguments path_exists {FS} _ _ _.

(** The calls made to the external tools, oldest first. *)
Inductive call : Type :=
| ExtractInfo (term : string)
| Download (urls : list string).

Record World (FS : Type) : Type := {
  files : FS;
  calls : list call
}.
Arguments files {FS} _.
Arguments calls {FS} _.

(** The world after one more call to the extractor. *)
Definition extracted {FS : Type} (w : World FS) (term : string) : World FS :=
  {| files := files w; calls := (calls w ++ [ExtractInfo term])%list |}.

Definition is_download (c : call) : bool :=
  match c with
  | Download _ => true
  | ExtractInfo _ => false
  end.

Definition downloads (cs : list call) : nat :=
  List.length (filter is_download cs).

(** ** Responses *)

Definition HTTP_200 : string := "200 OK".
Definition HTTP_400 : string := "400 Bad Request".

Record Response : Type := {
  media : option (dict pyval);
  status : string
}.

(** The response object a handler receives: no body yet, status 200. *)
Definition new_response : Response :=
  {| media := None; status := HTTP_200 |}.

Definition set_media (res : Response) (m : dict pyval) : Response :=
  {| media := Some m; status := status res |}.

Definition set_status (res : Response) (s : string) : Response :=
  {| media := media res; status := s |}.

(** The ["ok"] field of a response body. *)
Definition ok_of (res : Response) : option pyval :=
  match media res with
  | Some m => lookup m "ok"
  | None => None
  end.

Definition reason_of (res : Response) : option pyval :=
  match media res with
  | Some m => lookup m "reason"
  | None => None
  end.

(** ** The handlers *)

(** Computations that read and change the world and may raise. *)
Definition M (FS A : Type) : Type := World FS -> result A * World FS.

Definition ret {FS A : Type} (a : A) : M FS A := fun w => (Ok a, w).

Definition raise {FS A : Type} (e : exn) : M FS A := fun w => (Raise e, w).

Definition bind {FS A B : Type} (m : M FS A) (k : A -> M FS B) : M FS B :=
  fun w =>
    match m w with
    | (Ok a, w') => k a w'
    | (Raise e, w') => (Raise e, w')
    end.

Definition lift {FS A : Type} (r : result A) : M FS A := fun w => (r, w).

Notation "x <- m ;; k" := (bind m (fun x => k))
  (at level 61, m at next level, right associativity).

Section Handlers.

Context {FS : Type}.
Variable ext : External FS.

Definition ytdl_extract_info (term : string) : M FS InfoDict :=
  fun w =>
    (extract_info ext term,
     {| files := files w; calls := (calls w ++ [ExtractInfo term])%list |}).

Definition ytdl_download (urls : list string) : M FS unit :=
  fun w =>
    let (r, fs') := download ext urls (files w) in
    (r, {| files := fs'; calls := (calls w ++ [Download urls])%list |}).

Definition exists_ (p : Path) : M FS bool :=
  fun w => (Ok (path_exists ext (files w) p), w).

(** Get current jukebox status. *)
Definition V1Status_on_get (res : Response) : M FS Response :=
  ret (set_media res [("ok", PBool true)]).

(** [info["entries"][0]] *)
Definition first_entry (info : InfoDict) : result (dict scalar) :=
  match entries info with
  | None => Raise (KeyError "entries")
  | Some es => first es
  end.

Definition video_info_keys : list string :=
  [ "alt_title"; "artist"; "creator"; "description"; "title"; "track";
    "uploader"; "webpage_url"; "viewcount"; "duration" ].

(** Search for a specific video to request. *)
Definition V1Lookup_on_get (res : Response) (search_term : string)
  : M FS Response :=
  info <- ytdl_extract_info search_term ;;
  match first_entry info with
  | Raise (KeyError _) =>
      ret (set_status
             (set_media res
                [ ("ok", PBool false);
                  ("reason",
                    PStr ("Nothing found for search term '" ++ search_term)) ])
             HTTP_400)
  | Raise e => raise e
  | Ok choice =>
      duration <- lift (getitem choice "duration") ;;
      d <- lift (as_int duration) ;;
      token <- lift (getitem choice "id") ;;
      ret (set_media res
             (response_for_duration d
                ++ [ ("token", PScalar token);
                     ("video_info",
                       PDict (map (fun k => (k, get choice k))
                                video_info_keys)) ])%list)
  end.

(** [Path("./cache/audio") / f"{id}.opus"] *)
Definition audio_file_path (id : scalar) : Path :=
  PathDiv (PathOf "./cache/audio") (str id ++ ".opus").

Definition V1Enqueue_on_get (res : Response) (video_id : string)
  : M FS Response :=
  let url := "https://youtu.be/" ++ video_id in
  info <- ytdl_extract_info url ;;
  id <- lift (getitem (fields info) "id") ;;
  cached <- exists_ (audio_file_path id) ;;
  if cached then ret (set_media res [("ok", PBool true)])
  else
    duration <- lift (getitem (fields info) "duration") ;;
    d <- lift (as_int duration) ;;
    let duration_response := response_for_duration d in
    ok <- lift (getitem duration_response "ok") ;;
    if negb (truthy ok) then
      ret (set_status (set_media res duration_response) HTTP_400)
    else
      let url := "https://youtu.be/" ++ str id in
      _ <- ytdl_download [url] ;;
      ret (set_media res [("ok", PBool true)]).

End Handlers.

(** ** Overlapping enqueue requests

    The enqueue handler as a thread that stops before each of its three
    interactions with the world: the extraction, the test of the cache file
    and the download.  Requests served at the same time interleave at these
    points. *)

Section Threads.

Context {FS : Type}.
Variable ext : External FS.

Inductive thread : Type :=
| Start (res : Response) (video_id : string)
| Probe (res : Response) (info : InfoDict) (id : scalar)
| Fetch (res : Response) (id : scalar)
| Done (r : result Response).

Definition step (t : thread) (w : World FS) : thread * World FS :=
  match t with
  | Start res video_id =>
      match ytdl_extract_info ext ("https://youtu.be/" ++ video_id) w with
      | (Raise e, w') => (Done (Raise e), w')
      | (Ok info, w') =>
          match getitem (fields info) "id" with
          | Raise e => (Done (Raise e), w')
          | Ok id => (Probe res info id, w')
          end
      end
  | Probe res info id =>
      if path_exists ext (files w) (audio_file_path id) then
        (Done (Ok (set_media res [("ok", PBool true)])), w)
      else
        match getitem (fields info) "duration" with
        | Raise e => (Done (Raise e), w)
        | Ok duration =>
            match as_int duration with
            | Raise e => (Done (Raise e), w)
            | Ok d =>
                let duration_response := response_for_duration d in
                match getitem duration_response "ok" with
                | Raise e => (Done (Raise e), w)
                | Ok ok =>
                    if negb (truthy ok) then
                      (Done (Ok (set_status (set_media res duration_response)
                                   HTTP_400)), w)
                    else (Fetch res id, w)
                end
            end
        end
  | Fetch res id =>
      match ytdl_download ext ["https://youtu.be/" ++ str id] w with
      | (Raise e, w') => (Done (Raise e), w')
      | (Ok _, w') => (Done (Ok (set_media res [("ok", PBool true)])), w')
      end
  | Done r => (Done r, w)
  end.

(** One thread alone, for [n] steps. *)
Fixpoint run (n : nat) (t : thread) (w : World FS) : thread * World FS :=
  match n with
  | O => (t, w)
  | S n' => let (t', w') := step t w in run n' t' w'
  end.

(** Two threads under a schedule: [false] lets the first one take a step,
    [true] the second one. *)
Fixpoint interleave (schedule : list bool) (a b : thread) (w : World FS)
  : thread * thread * World FS :=
  match schedule with
  | [] => (a, b, w)
  | false :: rest => let (a', w') := step a w in interleave rest a' b w'
  | true :: rest => let (b', w') := step b w in interleave rest a b' w'
  end.

Definition finished (t : thread) : bool :=
  match t with
  | Done _ => true
  | _ => false
  end.

End Threads.

(** ** A concrete world

    A catalogue of extraction results by term, and a directory of paths: the
    download of [https://youtu.be/<id>] writes [./cache/audio/<id>.opus],
    as the output template and the post-processor of [YTDL_OPTS] ask. *)

Module Demo.

Fixpoint Path_eqb (p q : Path) : bool :=
  match p, q with
  | PathOf s, PathOf s' => String.eqb s s'
  | PathDiv p' n, PathDiv q' n' => Path_eqb p' q' && String.eqb n n'
  | _, _ => false
  end.

Definition id_of_url (url : string) : string :=
  substring 17 (String.length url - 17) url.

Definition world (catalogue : dict InfoDict) : External (list Path) :=
  {| extract_info term :=
       match lookup catalogue term with
       | Some info => Ok info
       | None => Raise (ExternalError "no such video")
       end;
     download urls fs :=
       (Ok tt,
        (map (fun u => audio_file_path (SStr (id_of_url u))) urls ++ fs)%list);
     path_exists fs p := existsb (Path_eqb p) fs |}.

Definition video (id : string) (duration : Z) : InfoDict :=
  {| fields := [("id", SStr id); ("duration", SInt duration)];
     entries := None |}.

Definition results (es : list (dict scalar)) : InfoDict :=
  {| fields := [("_type", SStr "playlist")]; entries := Some es |}.

Definition empty (fs : list Path) : World (list Path) :=
  {| files := fs; calls := [] |}.

Definition rickroll : dict scalar :=
  [ ("id", SStr "dQw4w9WgXcQ"); ("title", SStr "Never Gonna Give You Up");
    ("uploader", SStr "Rick Astley"); ("duration", SInt 213) ].

Definition concert : dict scalar :=
  [ ("id", SStr "long"); ("title", SStr "Concert"); ("duration", SInt 1200) ].

Definition catalogue : dict InfoDict :=
  [ ("https://youtu.be/abc", video "abc" 100);
    ("https://youtu.be/long", video "long" 1200);
    ("never gonna give you up", results [rickroll]);
    ("concert", results [concert]);
    ("asdkfjhaskldfjhaslkdfjh", results []) ].

Definition jukebox : External (list Path) := world catalogue.

End Demo.

(** ** Repeated requests and the progress of threads *)

(** [n] enqueue requests for the same id, served one after the other, each
    with a response object of its own. *)
Fixpoint enqueue_times {FS : Type} (ext : External FS) (n : nat)
    (video_id : string) (w : World FS) : list (result Response) * World FS :=
  match n with
  | O => ([], w)
  | S n' =>
      let (r, w') := V1Enqueue_on_get ext new_response video_id w in
      let (rs, w'') := enqueue_times ext n' video_id w' in
      (r :: rs, w'')
  end.

(** The steps a thread has still to take, at most. *)
Definition remaining (t : thread) : nat :=
  match t with
  | Start _ _ => 3
  | Probe _ _ _ => 2
  | Fetch _ _ => 1
  | Done _ => 0
  end.

(** The downloads a thread may still make. *)
Definition pending (t : thread) : nat :=
  match t with
  | Done _ => 0
  | _ => 1
  end.

(** The turns a schedule gives to one of the two threads. *)
Definition turns (who : bool) (schedule : list bool) : nat :=
  count_occ Bool.bool_dec schedule who.

(** ** Worlds for the edge cases *)

Module Edge.

(** A live stream: the extractor knows no duration. *)
Definition live : dict scalar :=
  [ ("id", SStr "live"); ("title", SStr "Live"); ("duration", SNone) ].

(** An entry without an id. *)
Definition anonymous : dict scalar :=
  [ ("title", SStr "Untitled"); ("duration", SInt 1200) ].

Definition catalogue : dict InfoDict :=
  [ ("live", Demo.results [live]);
    ("anonymous", Demo.results [anonymous]);
    ("https://youtu.be/live",
      {| fields := live; entries := None |});
    ("https://youtu.be/anonymous",
      {| fields := anonymous; entries := None |});
    ("https://youtu.be/abc", Demo.video "abc" 100);
    ("https://youtu.be/alias", Demo.video "abc" 100);
    ("concert", Demo.results [Demo.concert; Demo.rickroll]) ].

Definition jukebox : External (list Path) := Demo.world catalogue.

(** The download tool fails and leaves a partial file behind. *)
Definition broken : External (list Path) :=
  {| extract_info := extract_info jukebox;
     download urls fs :=
       (Raise (ExternalError "download failed"),
        (PathDiv (PathOf "./cache/audio") "abc.part" :: fs)%list);
     path_exists := path_exists jukebox |}.

End Edge.

(** * Properties *)

(** ** Rendering of durations *)

Example s2m_1200 : s2m 1200 = "20:00".
Proof. reflexivity. Qed.

Example s2m_61 : s2m 61 = "1:01".
Proof. reflexivity. Qed.

Example s2m_negative : s2m (-1) = "-1:59".
Proof. reflexivity. Qed.

Lemma below_100_listed (n : Z) :
  0 <= n < 100 -> In n (map Z.of_nat (seq 0 100)).
Proof.
  intros Hn. apply in_map_iff. exists (Z.to_nat n). split.
  - lia.
  - apply in_seq. lia.
Qed.

(** Padding to width two writes exactly two digits below 100. *)
Lemma format_two_digits (n : Z) :
  0 <= n < 100 -> format_zero_padded 2 n = two_digits n.
Proof.
  intros Hn.
  assert (Hall : forallb
            (fun k => String.eqb (format_zero_padded 2 k) (two_digits k))
            (map Z.of_nat (seq 0 100)) = true) by (vm_compute; reflexivity).
  rewrite forallb_forall in Hall.
  apply String.eqb_eq, Hall, below_100_listed, Hn.
Qed.

(** [s2m] is the rendering of the specification, for every integer. *)
Lemma s2m_minutes_seconds (s : Z) : s2m s = minutes_seconds s.
Proof.
  unfold s2m, minutes_seconds.
  replace (s - s / 60 * 60) with (s mod 60) by (rewrite Z.mod_eq; lia).
  rewrite format_two_digits; [reflexivity|].
  pose proof (Z.mod_pos_bound s 60). lia.
Qed.

Lemma contains_here (needle post : string) : contains needle (needle ++ post).
Proof. exists EmptyString, post. reflexivity. Qed.

Lemma contains_after (pre needle hay : string) :
  contains needle hay -> contains needle (pre ++ hay).
Proof.
  intros [a [b ->]]. exists (pre ++ a), b.
  induction pre as [|c pre IH]; simpl; [reflexivity|now rewrite IH].
Qed.

(** ** The duration policy *)

Lemma response_for_duration_accept (d : Z) :
  d <= MAX_VIDEO_DURATION -> response_for_duration d = [("ok", PBool true)].
Proof.
  intros Hd. unfold response_for_duration.
  destruct (Z.gtb_spec d MAX_VIDEO_DURATION); [lia|reflexivity].
Qed.

Lemma response_for_duration_reject (d : Z) :
  d > MAX_VIDEO_DURATION ->
  response_for_duration d =
    [ ("ok", PBool false);
      ("reason",
        PStr ("Video is too long at " ++ str_of_int d ++ "s ("
              ++ s2m d ++ "). "
              ++ "Maximum duration is " ++ str_of_int MAX_VIDEO_DURATION ++ "s "
              ++ "(" ++ s2m MAX_VIDEO_DURATION ++ ").")) ].
Proof.
  intros Hd. unfold response_for_duration.
  destruct (Z.gtb_spec d MAX_VIDEO_DURATION); [reflexivity|lia].
Qed.

(** C3: the maximum is 720 seconds; the duration check answers ok=True
    exactly for the durations [d <= 720], and for every [d > 720] it answers
    ok=False together with a reason. *)
Theorem duration_check_accepts_iff (d : Z) :
  MAX_VIDEO_DURATION = 720 /\
  (lookup (response_for_duration d) "ok" = Some (PBool true) <-> d <= 720) /\
  (d > 720 ->
   lookup (response_for_duration d) "ok" = Some (PBool false) /\
   exists reason,
     lookup (response_for_duration d) "reason" = Some (PStr reason)).
Proof.
  split; [reflexivity|].
  change 720 with MAX_VIDEO_DURATION.
  destruct (Z_le_gt_dec d MAX_VIDEO_DURATION) as [Hle|Hgt].
  - rewrite (response_for_duration_accept d Hle). simpl.
    split; [tauto|lia].
  - rewrite (response_for_duration_reject d Hgt). simpl. split.
    + split; [discriminate|lia].
    + intros _. split; [reflexivity|eexists; reflexivity].
Qed.

Lemma duration_check_accepts_iff_witness :
  lookup (response_for_duration 1200) "ok" = Some (PBool false) /\
  exists reason,
    lookup (response_for_duration 1200) "reason" = Some (PStr reason).
Proof.
  apply (proj2 (proj2 (duration_check_accepts_iff 1200))). lia.
Defined.

(** C4: for every [d] above the maximum the reason of the rejection contains
    both [d] and the maximum in minutes:seconds form, that is the quotient
    by 60, a colon and the remainder modulo 60 padded to two digits. *)
Theorem rejection_reason_renders_durations (d : Z) :
  d > MAX_VIDEO_DURATION ->
  exists reason,
    lookup (response_for_duration d) "reason" = Some (PStr reason) /\
    contains (minutes_seconds d) reason /\
    contains (minutes_seconds MAX_VIDEO_DURATION) reason /\
    s2m d = minutes_seconds d /\
    s2m MAX_VIDEO_DURATION = minutes_seconds MAX_VIDEO_DURATION.
Proof.
  intros Hd. rewrite (response_for_duration_reject d Hd).
  eexists. split; [reflexivity|].
  rewrite <- !s2m_minutes_seconds.
  repeat split.
  - do 3 apply contains_after. apply contains_here.
  - do 9 apply contains_after. apply contains_here.
Qed.

Lemma rejection_reason_renders_durations_witness :
  exists reason,
    lookup (response_for_duration 1200) "reason" = Some (PStr reason) /\
    contains (minutes_seconds 1200) reason /\
    contains (minutes_seconds MAX_VIDEO_DURATION) reason /\
    s2m 1200 = minutes_seconds 1200 /\
    s2m MAX_VIDEO_DURATION = minutes_seconds MAX_VIDEO_DURATION.
Proof.
  apply (rejection_reason_renders_durations 1200). reflexivity.
Defined.

(** ** The enqueue handler *)

Section EnqueueFacts.

Context {FS : Type}.
Variable ext : External FS.

Ltac run_enqueue :=
  unfold V1Enqueue_on_get, bind, ytdl_extract_info, ytdl_download, exists_,
    lift, ret, extracted; cbn [files calls].

(** The cache file is there: one extraction, no download, ok=True. *)
Lemma enqueue_cached (res : Response) (video_id : string) (w : World FS)
    (info : InfoDict) (id : scalar) :
  extract_info ext ("https://youtu.be/" ++ video_id) = Ok info ->
  getitem (fields info) "id" = Ok id ->
  path_exists ext (files w) (audio_file_path id) = true ->
  V1Enqueue_on_get ext res video_id w =
    (Ok (set_media res [("ok", PBool true)]),
     extracted w ("https://youtu.be/" ++ video_id)).
Proof.
  intros Hx Hid Hc. run_enqueue. rewrite Hx, Hid, Hc. reflexivity.
Qed.

(** No cache file and a duration above the maximum: the answer of the
    duration check with status 400, after the extraction alone. *)
Lemma enqueue_rejected (res : Response) (video_id : string) (w : World FS)
    (info : InfoDict) (id : scalar) (d : Z) :
  extract_info ext ("https://youtu.be/" ++ video_id) = Ok info ->
  getitem (fields info) "id" = Ok id ->
  path_exists ext (files w) (audio_file_path id) = false ->
  getitem (fields info) "duration" = Ok (SInt d) ->
  d > MAX_VIDEO_DURATION ->
  V1Enqueue_on_get ext res video_id w =
    (Ok (set_status (set_media res (response_for_duration d)) HTTP_400),
     extracted w ("https://youtu.be/" ++ video_id)).
Proof.
  intros Hx Hid Hc Hd Hgt. run_enqueue. rewrite Hx, Hid, Hc, Hd.
  cbn [as_int]. rewrite (response_for_duration_reject d Hgt). reflexivity.
Qed.

(** No cache file and an accepted duration: the download is called with the
    URL of the extracted id. *)
Lemma enqueue_downloads (res : Response) (video_id : string) (w : World FS)
    (info : InfoDict) (id : scalar) (d : Z) (r : result unit) (fs' : FS) :
  extract_info ext ("https://youtu.be/" ++ video_id) = Ok info ->
  getitem (fields info) "id" = Ok id ->
  path_exists ext (files w) (audio_file_path id) = false ->
  getitem (fields info) "duration" = Ok (SInt d) ->
  d <= MAX_VIDEO_DURATION ->
  download ext ["https://youtu.be/" ++ str id] (files w) = (r, fs') ->
  V1Enqueue_on_get ext res video_id w =
    (match r with
     | Ok _ => Ok (set_media res [("ok", PBool true)])
     | Raise e => Raise e
     end,
     {| files := fs';
        calls := (calls w
                  ++ [ ExtractInfo ("https://youtu.be/" ++ video_id)%string;
                       Download [("https://youtu.be/" ++ str id)%string] ])%list
     |}).
Proof.
  intros Hx Hid Hc Hd Hle Hdl. run_enqueue. rewrite Hx, Hid, Hc, Hd.
  cbn [as_int]. rewrite (response_for_duration_accept d Hle).
  cbn [getitem lookup String.eqb Ascii.eqb Bool.eqb truthy negb].
  cbn [files calls]. rewrite Hdl, <- app_assoc. destruct r; reflexivity.
Qed.

Lemma downloads_app (cs cs' : list call) :
  downloads (cs ++ cs') = (downloads cs + downloads cs')%nat.
Proof.
  unfold downloads. rewrite filter_app, length_app. reflexivity.
Qed.

(** The thread that stops before each interaction computes what the handler
    computes. *)
Lemma run_thread_is_handler (res : Response) (video_id : string)
    (w : World FS) :
  run ext 3 (Start res video_id) w =
    (Done (fst (V1Enqueue_on_get ext res video_id w)),
     snd (V1Enqueue_on_get ext res video_id w)).
Proof.
  run_enqueue. unfold run, step, ytdl_extract_info, ytdl_download.
  destruct (extract_info ext _) as [info|e]; [|reflexivity].
  destruct (getitem (fields info) "id") as [id|e]; [|reflexivity].
  cbn [files calls].
  destruct (path_exists ext (files w) _); [reflexivity|].
  destruct (getitem (fields info) "duration") as [dv|e]; [|reflexivity].
  destruct (as_int dv) as [d|e]; [|reflexivity].
  destruct (getitem (response_for_duration d) "ok") as [ok|e]; [|reflexivity].
  destruct (truthy ok); [|reflexivity]. cbn [negb files calls].
  destruct (download ext _ _) as [[u|e] fs']; reflexivity.
Qed.

(** A schedule that lets the first request finish before the second one
    starts is the sequential composition of the two handlers. *)
Lemma interleave_one_after_the_other (a b : thread) (w : World FS) :
  interleave ext [false; false; false; true; true; true] a b w =
    (fst (run ext 3 a w),
     fst (run ext 3 b (snd (run ext 3 a w))),
     snd (run ext 3 b (snd (run ext 3 a w)))).
Proof.
  cbn [interleave run].
  destruct (step ext a w) as [a1 w1].
  destruct (step ext a1 w1) as [a2 w2].
  destruct (step ext a2 w2) as [a3 w3]. cbn [fst snd].
  destruct (step ext b w3) as [b1 w4].
  destruct (step ext b1 w4) as [b2 w5].
  destruct (step ext b2 w5) as [b3 w6].
  reflexivity.
Qed.

End EnqueueFacts.

(** C2, as the code has it: when the cache file of the extracted id exists,
    the enqueue handler calls the extractor once and the download tool not
    at all, leaves the files as they are and answers ok=True without
    touching the status. *)
Theorem enqueue_cached_extracts_only {FS : Type} (ext : External FS)
    (res : Response) (video_id : string) (w : World FS)
    (info : InfoDict) (id : scalar) :
  extract_info ext ("https://youtu.be/" ++ video_id) = Ok info ->
  getitem (fields info) "id" = Ok id ->
  path_exists ext (files w) (audio_file_path id) = true ->
  let out := V1Enqueue_on_get ext res video_id w in
  fst out = Ok (set_media res [("ok", PBool true)]) /\
  calls (snd out) =
    (calls w ++ [ExtractInfo ("https://youtu.be/" ++ video_id)%string])%list /\
  downloads (calls (snd out)) = downloads (calls w) /\
  files (snd out) = files w.
Proof.
  intros Hx Hid Hc out. subst out.
  rewrite (enqueue_cached ext res video_id w info id Hx Hid Hc).
  cbn [fst snd extracted files calls]. repeat split.
  rewrite downloads_app. cbn. lia.
Qed.

Lemma enqueue_cached_extracts_only_witness :
  let w := Demo.empty [audio_file_path (SStr "abc")] in
  let out := V1Enqueue_on_get Demo.jukebox new_response "abc" w in
  fst out = Ok (set_media new_response [("ok", PBool true)]) /\
  calls (snd out) = (calls w ++ [ExtractInfo "https://youtu.be/abc"])%list /\
  downloads (calls (snd out)) = downloads (calls w) /\
  files (snd out) = files w.
Proof.
  apply (enqueue_cached_extracts_only Demo.jukebox new_response "abc"
           (Demo.empty [audio_file_path (SStr "abc")])
           (Demo.video "abc" 100) (SStr "abc")); reflexivity.
Defined.

(** C2, as stated, fails: with the cache file of ["abc"] present the
    handler still makes one external call, the extraction. *)
Lemma enqueue_cached_makes_an_external_call :
  let w := Demo.empty [audio_file_path (SStr "abc")] in
  let out := V1Enqueue_on_get Demo.jukebox new_response "abc" w in
  path_exists Demo.jukebox (files w) (audio_file_path (SStr "abc")) = true /\
  fst out = Ok (set_media new_response [("ok", PBool true)]) /\
  calls (snd out) = [ExtractInfo "https://youtu.be/abc"] /\
  calls (snd out) <> calls w.
Proof.
  cbv zeta. repeat split; try reflexivity. vm_compute. discriminate.
Qed.

(** C8: when the cache file of the extracted id exists the enqueue handler
    answers ok=True whatever the duration is, also for a duration that the
    duration check refuses. *)
Theorem enqueue_cached_ignores_duration {FS : Type} (ext : External FS)
    (res : Response) (video_id : string) (w : World FS)
    (info : InfoDict) (id : scalar) :
  extract_info ext ("https://youtu.be/" ++ video_id) = Ok info ->
  getitem (fields info) "id" = Ok id ->
  path_exists ext (files w) (audio_file_path id) = true ->
  (exists res',
     fst (V1Enqueue_on_get ext res video_id w) = Ok res' /\
     media res' = Some [("ok", PBool true)] /\
     status res' = status res) /\
  (forall d : Z,
     getitem (fields info) "duration" = Ok (SInt d) ->
     d > MAX_VIDEO_DURATION ->
     lookup (response_for_duration d) "ok" = Some (PBool false)).
Proof.
  intros Hx Hid Hc. split.
  - rewrite (enqueue_cached ext res video_id w info id Hx Hid Hc).
    eexists. repeat split.
  - intros d _ Hd. rewrite (response_for_duration_reject d Hd). reflexivity.
Qed.

Lemma enqueue_cached_ignores_duration_witness :
  (exists res',
     fst (V1Enqueue_on_get Demo.jukebox new_response "long"
            (Demo.empty [audio_file_path (SStr "long")])) = Ok res' /\
     media res' = Some [("ok", PBool true)] /\
     status res' = status new_response) /\
  (forall d : Z,
     getitem (fields (Demo.video "long" 1200)) "duration" = Ok (SInt d) ->
     d > MAX_VIDEO_DURATION ->
     lookup (response_for_duration d) "ok" = Some (PBool false)).
Proof.
  apply (enqueue_cached_ignores_duration Demo.jukebox new_response "long"
           (Demo.empty [audio_file_path (SStr "long")])
           (Demo.video "long" 1200) (SStr "long")); reflexivity.
Defined.

(** C10: when the cache file is absent and the duration exceeds the maximum,
    the enqueue handler answers ok=False with status 400, calls no download
    and leaves the files as they are. *)
Theorem enqueue_rejected_downloads_nothing {FS : Type} (ext : External FS)
    (res : Response) (video_id : string) (w : World FS)
    (info : InfoDict) (id : scalar) (d : Z) :
  extract_info ext ("https://youtu.be/" ++ video_id) = Ok info ->
  getitem (fields info) "id" = Ok id ->
  path_exists ext (files w) (audio_file_path id) = false ->
  getitem (fields info) "duration" = Ok (SInt d) ->
  d > MAX_VIDEO_DURATION ->
  let out := V1Enqueue_on_get ext res video_id w in
  (exists res',
     fst out = Ok res' /\
     ok_of res' = Some (PBool false) /\
     status res' = HTTP_400) /\
  files (snd out) = files w /\
  calls (snd out) =
    (calls w ++ [ExtractInfo ("https://youtu.be/" ++ video_id)%string])%list /\
  downloads (calls (snd out)) = downloads (calls w).
Proof.
  intros Hx Hid Hc Hd Hgt out. subst out.
  rewrite (enqueue_rejected ext res video_id w info id d Hx Hid Hc Hd Hgt).
  cbn [fst snd extracted files calls]. repeat split.
  - eexists. split; [reflexivity|]. split; [|reflexivity].
    unfold ok_of. cbn [set_status set_media media].
    rewrite (response_for_duration_reject d Hgt). reflexivity.
  - rewrite downloads_app. cbn. lia.
Qed.

Lemma enqueue_rejected_downloads_nothing_witness :
  let w := Demo.empty [] in
  let out := V1Enqueue_on_get Demo.jukebox new_response "long" w in
  (exists res',
     fst out = Ok res' /\
     ok_of res' = Some (PBool false) /\
     status res' = HTTP_400) /\
  files (snd out) = files w /\
  calls (snd out) = (calls w ++ [ExtractInfo "https://youtu.be/long"])%list /\
  downloads (calls (snd out)) = downloads (calls w).
Proof.
  apply (enqueue_rejected_downloads_nothing Demo.jukebox new_response "long"
           (Demo.empty []) (Demo.video "long" 1200) (SStr "long") 1200);
    reflexivity.
Defined.

(** C5: the enqueue of a video that is not cached and lasts 1200 seconds
    answers status 400 with ok=False and the reason "Video is too long at
    1200s (20:00). Maximum duration is 720s (12:00)." *)
Theorem enqueue_1200_seconds {FS : Type} (ext : External FS)
    (res : Response) (video_id : string) (w : World FS)
    (info : InfoDict) (id : scalar) :
  extract_info ext ("https://youtu.be/" ++ video_id) = Ok info ->
  getitem (fields info) "id" = Ok id ->
  path_exists ext (files w) (audio_file_path id) = false ->
  getitem (fields info) "duration" = Ok (SInt 1200) ->
  fst (V1Enqueue_on_get ext res video_id w) =
    Ok {| media :=
            Some [ ("ok", PBool false);
                   ("reason",
                     PStr ("Video is too long at 1200s (20:00). "
                           ++ "Maximum duration is 720s (12:00).")) ];
          status := "400 Bad Request" |}.
Proof.
  intros Hx Hid Hc Hd.
  rewrite (enqueue_rejected ext res video_id w info id 1200 Hx Hid Hc Hd);
    reflexivity.
Qed.

Lemma enqueue_1200_seconds_witness :
  fst (V1Enqueue_on_get Demo.jukebox new_response "long" (Demo.empty [])) =
    Ok {| media :=
            Some [ ("ok", PBool false);
                   ("reason",
                     PStr ("Video is too long at 1200s (20:00). "
                           ++ "Maximum duration is 720s (12:00).")) ];
          status := "400 Bad Request" |}.
Proof.
  apply (enqueue_1200_seconds Demo.jukebox new_response "long"
           (Demo.empty []) (Demo.video "long" 1200) (SStr "long"));
    reflexivity.
Defined.

(** ** Overlapping and successive enqueue requests *)

(** C1, as the code has it: of two enqueue requests for the same id served
    one after the other, for a video that is not cached, whose duration is
    accepted and whose download succeeds and leaves the cache file, only the
    first one calls the download tool.  Nothing de-duplicates requests that
    overlap. *)
Theorem successive_enqueues_download_once {FS : Type} (ext : External FS)
    (video_id : string) (w : World FS) (info : InfoDict) (id : scalar) (d : Z)
    (fs' : FS) :
  extract_info ext ("https://youtu.be/" ++ video_id) = Ok info ->
  getitem (fields info) "id" = Ok id ->
  path_exists ext (files w) (audio_file_path id) = false ->
  getitem (fields info) "duration" = Ok (SInt d) ->
  d <= MAX_VIDEO_DURATION ->
  download ext ["https://youtu.be/" ++ str id] (files w) = (Ok tt, fs') ->
  path_exists ext fs' (audio_file_path id) = true ->
  let one := V1Enqueue_on_get ext new_response video_id w in
  let two := V1Enqueue_on_get ext new_response video_id (snd one) in
  fst one = Ok (set_media new_response [("ok", PBool true)]) /\
  fst two = Ok (set_media new_response [("ok", PBool true)]) /\
  downloads (calls (snd two)) = S (downloads (calls w)) /\
  interleave ext [false; false; false; true; true; true]
    (Start new_response video_id) (Start new_response video_id) w =
    (Done (fst one), Done (fst two), snd two).
Proof.
  intros Hx Hid Hc Hd Hle Hdl Hc' one two.
  assert (H1 : one =
                 (Ok (set_media new_response [("ok", PBool true)]),
                  {| files := fs';
                     calls := (calls w
                       ++ [ ExtractInfo ("https://youtu.be/" ++ video_id)%string;
                            Download [("https://youtu.be/" ++ str id)%string]
                          ])%list |})).
  { subst one.
    now rewrite (enqueue_downloads ext new_response video_id w info id d
                   (Ok tt) fs' Hx Hid Hc Hd Hle Hdl). }
  assert (H2 : two =
                 (Ok (set_media new_response [("ok", PBool true)]),
                  extracted (snd one) ("https://youtu.be/" ++ video_id))).
  { subst two. apply (enqueue_cached ext _ _ _ info id Hx Hid).
    rewrite H1. exact Hc'. }
  repeat split.
  - now rewrite H1.
  - now rewrite H2.
  - rewrite H2, H1. cbn [snd extracted calls]. rewrite !downloads_app.
    cbn. lia.
  - rewrite interleave_one_after_the_other, !run_thread_is_handler.
    reflexivity.
Qed.

Lemma successive_enqueues_download_once_witness :
  let one := V1Enqueue_on_get Demo.jukebox new_response "abc" (Demo.empty []) in
  let two := V1Enqueue_on_get Demo.jukebox new_response "abc" (snd one) in
  fst one = Ok (set_media new_response [("ok", PBool true)]) /\
  fst two = Ok (set_media new_response [("ok", PBool true)]) /\
  downloads (calls (snd two)) = S (downloads (calls (Demo.empty []))) /\
  interleave Demo.jukebox [false; false; false; true; true; true]
    (Start new_response "abc") (Start new_response "abc") (Demo.empty []) =
    (Done (fst one), Done (fst two), snd two).
Proof.
  apply (successive_enqueues_download_once Demo.jukebox "abc" (Demo.empty [])
           (Demo.video "abc" 100) (SStr "abc") 100
           [audio_file_path (SStr "abc")]); try reflexivity.
  vm_compute. discriminate.
Defined.

(** C1, as stated, fails: when two requests for ["abc"] overlap so that both
    test the cache file before either download has been made, the download
    tool is called twice. *)
Lemma overlapping_enqueues_download_twice :
  let '(a, b, w) :=
    interleave Demo.jukebox [false; true; false; true; false; true]
      (Start new_response "abc") (Start new_response "abc") (Demo.empty []) in
  a = Done (Ok (set_media new_response [("ok", PBool true)])) /\
  b = Done (Ok (set_media new_response [("ok", PBool true)])) /\
  calls w = [ ExtractInfo "https://youtu.be/abc";
              ExtractInfo "https://youtu.be/abc";
              Download ["https://youtu.be/abc"];
              Download ["https://youtu.be/abc"] ] /\
  downloads (calls w) <> 1%nat.
Proof.
  vm_compute. repeat split. discriminate.
Qed.

(** ** The lookup handler *)

Section LookupFacts.

Context {FS : Type}.
Variable ext : External FS.

Ltac run_lookup :=
  unfold V1Lookup_on_get, bind, ytdl_extract_info, lift, ret, raise,
    first_entry, extracted; cbn [files calls].

(** A first entry with an id and an integer duration: the answer of the
    duration check, then the token and the ten fields of the entry. *)
Lemma lookup_found (res : Response) (search_term : string) (w : World FS)
    (info : InfoDict) (choice : dict scalar) (rest : list (dict scalar))
    (d : Z) (token : scalar) :
  extract_info ext search_term = Ok info ->
  entries info = Some (choice :: rest) ->
  getitem choice "duration" = Ok (SInt d) ->
  getitem choice "id" = Ok token ->
  V1Lookup_on_get ext res search_term w =
    (Ok (set_media res
           (response_for_duration d
              ++ [ ("token", PScalar token);
                   ("video_info",
                     PDict (map (fun k => (k, get choice k))
                              video_info_keys)) ])%list),
     extracted w search_term).
Proof.
  intros Hx He Hd Hid. run_lookup. rewrite Hx, He. cbn [first].
  rewrite Hd. cbn [as_int]. rewrite Hid. reflexivity.
Qed.

(** No ["entries"] key: the [KeyError] is caught. *)
Lemma lookup_without_entries_key (res : Response) (search_term : string)
    (w : World FS) (info : InfoDict) :
  extract_info ext search_term = Ok info ->
  entries info = None ->
  V1Lookup_on_get ext res search_term w =
    (Ok {| media :=
             Some [ ("ok", PBool false);
                    ("reason",
                      PStr ("Nothing found for search term '"
                            ++ search_term)) ];
           status := HTTP_400 |},
     extracted w search_term).
Proof.
  intros Hx He. run_lookup. rewrite Hx, He. reflexivity.
Qed.

(** An empty list of entries: the [IndexError] is not caught. *)
Lemma lookup_empty_entries (res : Response) (search_term : string)
    (w : World FS) (info : InfoDict) :
  extract_info ext search_term = Ok info ->
  entries info = Some [] ->
  V1Lookup_on_get ext res search_term w =
    (Raise IndexError, extracted w search_term).
Proof.
  intros Hx He. run_lookup. rewrite Hx, He. reflexivity.
Qed.

End LookupFacts.

(** C6 (defect): the search term of the specification's scenario, for which
    the extractor answers with an empty list of entries, makes the lookup
    handler raise [IndexError]; no body and no status 400 are produced. *)
Theorem lookup_nothing_found_raises :
  entries (Demo.results []) = Some [] /\
  extract_info Demo.jukebox "asdkfjhaskldfjhaslkdfjh" = Ok (Demo.results []) /\
  V1Lookup_on_get Demo.jukebox new_response "asdkfjhaskldfjhaslkdfjh"
    (Demo.empty []) =
    (Raise IndexError,
     {| files := []; calls := [ExtractInfo "asdkfjhaskldfjhaslkdfjh"] |}).
Proof.
  repeat split.
Qed.

(** C7: a lookup whose first entry lasts longer than the maximum answers
    ok=False with a reason and leaves the status at 200. *)
Theorem lookup_too_long_is_200 {FS : Type} (ext : External FS)
    (search_term : string) (w : World FS)
    (info : InfoDict) (choice : dict scalar) (rest : list (dict scalar))
    (d : Z) (token : scalar) :
  extract_info ext search_term = Ok info ->
  entries info = Some (choice :: rest) ->
  getitem choice "duration" = Ok (SInt d) ->
  getitem choice "id" = Ok token ->
  d > MAX_VIDEO_DURATION ->
  exists res' reason,
    fst (V1Lookup_on_get ext new_response search_term w) = Ok res' /\
    ok_of res' = Some (PBool false) /\
    reason_of res' = Some (PStr reason) /\
    status res' = HTTP_200 /\
    status res' <> HTTP_400.
Proof.
  intros Hx He Hd Hid Hgt.
  rewrite (lookup_found ext new_response search_term w info choice rest d token
             Hx He Hd Hid).
  rewrite (response_for_duration_reject d Hgt).
  do 2 eexists. repeat split. discriminate.
Qed.

Lemma lookup_too_long_is_200_witness :
  exists res' reason,
    fst (V1Lookup_on_get Demo.jukebox new_response "concert" (Demo.empty []))
      = Ok res' /\
    ok_of res' = Some (PBool false) /\
    reason_of res' = Some (PStr reason) /\
    status res' = HTTP_200 /\
    status res' <> HTTP_400.
Proof.
  apply (lookup_too_long_is_200 Demo.jukebox "concert" (Demo.empty [])
           (Demo.results [Demo.concert]) Demo.concert [] 1200 (SStr "long"));
    reflexivity.
Defined.

(** C9, as the code has it: a lookup whose first entry has an id and an
    integer duration answers with the token (the id of that entry) and the
    video_info fields next to the answer of the duration check; when the
    duration is refused the body has the keys ok, reason, token and
    video_info. *)
Theorem lookup_body_has_token_and_info {FS : Type} (ext : External FS)
    (res : Response) (search_term : string) (w : World FS)
    (info : InfoDict) (choice : dict scalar) (rest : list (dict scalar))
    (d : Z) (token : scalar) :
  extract_info ext search_term = Ok info ->
  entries info = Some (choice :: rest) ->
  getitem choice "duration" = Ok (SInt d) ->
  getitem choice "id" = Ok token ->
  exists body,
    fst (V1Lookup_on_get ext res search_term w) = Ok (set_media res body) /\
    lookup body "token" = Some (PScalar token) /\
    lookup body "video_info" =
      Some (PDict (map (fun k => (k, get choice k)) video_info_keys)) /\
    keys body = (keys (response_for_duration d)
                   ++ ["token"; "video_info"])%list /\
    (d > MAX_VIDEO_DURATION ->
     lookup body "ok" = Some (PBool false) /\
     keys body = ["ok"; "reason"; "token"; "video_info"]).
Proof.
  intros Hx He Hd Hid.
  rewrite (lookup_found ext res search_term w info choice rest d token
             Hx He Hd Hid).
  eexists. split; [reflexivity|].
  destruct (Z_le_gt_dec d MAX_VIDEO_DURATION) as [Hle|Hgt].
  - rewrite (response_for_duration_accept d Hle). repeat split; lia.
  - rewrite (response_for_duration_reject d Hgt). repeat split.
Qed.

Lemma lookup_body_has_token_and_info_witness :
  exists body,
    fst (V1Lookup_on_get Demo.jukebox new_response "concert" (Demo.empty []))
      = Ok (set_media new_response body) /\
    lookup body "token" = Some (PScalar (SStr "long")) /\
    lookup body "video_info" =
      Some (PDict (map (fun k => (k, get Demo.concert k)) video_info_keys)) /\
    keys body = (keys (response_for_duration 1200)
                   ++ ["token"; "video_info"])%list /\
    (1200 > MAX_VIDEO_DURATION ->
     lookup body "ok" = Some (PBool false) /\
     keys body = ["ok"; "reason"; "token"; "video_info"]).
Proof.
  apply (lookup_body_has_token_and_info Demo.jukebox new_response "concert"
           (Demo.empty []) (Demo.results [Demo.concert]) Demo.concert []
           1200 (SStr "long")); reflexivity.
Defined.

(** C9, as stated, fails: the search term ["live"] finds a first entry with
    an id whose duration is [None]; the duration check raises [TypeError]
    and the lookup handler sets no body, hence neither token nor
    video_info. *)
Lemma lookup_found_without_body :
  extract_info Edge.jukebox "live" = Ok (Demo.results [Edge.live]) /\
  first_entry (Demo.results [Edge.live]) = Ok Edge.live /\
  getitem Edge.live "id" = Ok (SStr "live") /\
  fst (V1Lookup_on_get Edge.jukebox new_response "live" (Demo.empty [])) =
    Raise TypeError /\
  ~ (exists res' body,
       fst (V1Lookup_on_get Edge.jukebox new_response "live"
              (Demo.empty [])) = Ok res' /\
       media res' = Some body /\
       lookup body "token" = Some (PScalar (SStr "live"))).
Proof.
  repeat split. intros [res' [body [H _]]]. vm_compute in H. discriminate.
Qed.

(** * Further properties of the code *)

(** ** Rendering of durations, for every integer *)

Lemma string_length_append (s t : string) :
  String.length (s ++ t) = (String.length s + String.length t)%nat.
Proof.
  induction s as [|c s IH]; simpl; [reflexivity|now rewrite IH].
Qed.

(** Two concatenations with tails of the same length agree part by part. *)
Lemma append_same_tail_length (s1 s2 t1 t2 : string) :
  String.length t1 = String.length t2 ->
  s1 ++ t1 = s2 ++ t2 ->
  s1 = s2 /\ t1 = t2.
Proof.
  intros Hlen. revert s2.
  induction s1 as [|c s1 IH]; intros [|c' s2] H; simpl in H.
  - now split.
  - exfalso. apply (f_equal String.length) in H. simpl in H.
    rewrite string_length_append in H. lia.
  - exfalso. apply (f_equal String.length) in H. simpl in H.
    rewrite string_length_append in H. lia.
  - injection H as -> H. destruct (IH s2 H) as [-> ->]. now split.
Qed.

Lemma to_int_not_nil (z : Z) :
  Z.to_int z <> Decimal.Pos Decimal.Nil /\
  Z.to_int z <> Decimal.Neg Decimal.Nil.
Proof.
  destruct z as [|p|p]; simpl; split; try discriminate;
    intros H; injection H as H;
    exact (DecimalPos.Unsigned.to_uint_nonnil p H).
Qed.

(** The decimal writing of an integer determines it. *)
Lemma str_of_int_inj (a b : Z) : str_of_int a = str_of_int b -> a = b.
Proof.
  unfold str_of_int. intros H.
  destruct (to_int_not_nil a) as [Ha1 Ha2].
  destruct (to_int_not_nil b) as [Hb1 Hb2].
  apply (f_equal NilZero.int_of_string) in H.
  rewrite !NilZero.isi in H by assumption.
  injection H as H. now apply DecimalZ.to_int_inj.
Qed.

Lemma digit_inj (a b : Z) :
  0 <= a < 10 -> 0 <= b < 10 -> digit a = digit b -> a = b.
Proof.
  unfold digit. intros Ha Hb H.
  apply (f_equal nat_of_ascii) in H.
  rewrite !nat_ascii_embedding in H by lia. lia.
Qed.

Lemma two_digits_inj (a b : Z) :
  0 <= a < 60 -> 0 <= b < 60 -> two_digits a = two_digits b -> a = b.
Proof.
  unfold two_digits. intros Ha Hb H. injection H as H1 H2.
  apply digit_inj in H1;
    [|split; [apply Z.div_pos; lia|apply Z.div_lt_upper_bound; lia] ..].
  apply digit_inj in H2; [|apply Z.mod_pos_bound; lia ..].
  rewrite (Z.div_mod a 10), (Z.div_mod b 10) by lia. lia.
Qed.

(** X1: for every integer, negative ones included, [s2m] writes the floor
    quotient by 60, a colon and the remainder, which lies between 0 and 59
    and is written with exactly two digits; quotient and remainder give the
    number of seconds back. *)
Theorem s2m_every_integer (s : Z) :
  s2m s = str_of_int (s / 60) ++ ":" ++ two_digits (s mod 60) /\
  0 <= s mod 60 < 60 /\
  s = 60 * (s / 60) + s mod 60 /\
  String.length (two_digits (s mod 60)) = 2%nat.
Proof.
  split; [exact (s2m_minutes_seconds s)|].
  split; [apply Z.mod_pos_bound; lia|].
  split; [apply Z.div_mod; lia|reflexivity].
Qed.

(** X2: [s2m] is injective: two durations with the same rendering are the
    same duration. *)
Theorem s2m_injective (a b : Z) : s2m a = s2m b -> a = b.
Proof.
  rewrite !s2m_minutes_seconds. unfold minutes_seconds. intros H.
  apply append_same_tail_length in H; [|reflexivity].
  destruct H as [Hq Hr].
  apply str_of_int_inj in Hq. injection Hr as Hr1 Hr2.
  assert (Hm : a mod 60 = b mod 60).
  { apply two_digits_inj; try (apply Z.mod_pos_bound; lia).
    unfold two_digits. now rewrite Hr1, Hr2. }
  rewrite (Z.div_mod a 60), (Z.div_mod b 60) by lia. lia.
Qed.

Lemma s2m_injective_witness : 75 = 75.
Proof.
  apply (s2m_injective 75 75). reflexivity.
Defined.

(** ** The answer of the duration check *)

(** X3: for every duration above the maximum the answer is ok=False with the
    reason "Video is too long at <d>s (<m:ss>). Maximum duration is 720s
    (12:00)." and nothing else. *)
Theorem rejection_reason_text (d : Z) :
  d > MAX_VIDEO_DURATION ->
  response_for_duration d =
    [ ("ok", PBool false);
      ("reason",
        PStr ("Video is too long at " ++ str_of_int d ++ "s ("
              ++ minutes_seconds d
              ++ "). Maximum duration is 720s (12:00).")) ].
Proof.
  intros Hd. rewrite (response_for_duration_reject d Hd).
  rewrite (s2m_minutes_seconds d). reflexivity.
Qed.

Lemma rejection_reason_text_witness :
  response_for_duration 721 =
    [ ("ok", PBool false);
      ("reason",
        PStr ("Video is too long at " ++ str_of_int 721 ++ "s ("
              ++ minutes_seconds 721
              ++ "). Maximum duration is 720s (12:00).")) ].
Proof.
  apply (rejection_reason_text 721). reflexivity.
Defined.

(** X4: the answer of the duration check always has the key ok, holding a
    boolean, so that reading it never raises; it has the key reason exactly
    when ok is False, and no further key. *)
Theorem duration_answer_keys (d : Z) :
  getitem (response_for_duration d) "ok" = Ok (PBool (d <=? 720)%Z) /\
  (lookup (response_for_duration d) "reason" = None <-> d <= 720) /\
  keys (response_for_duration d) =
    (if (d <=? 720)%Z then ["ok"] else ["ok"; "reason"]).
Proof.
  change 720 with MAX_VIDEO_DURATION.
  destruct (Z.leb_spec d MAX_VIDEO_DURATION) as [Hle|Hgt].
  - rewrite (response_for_duration_accept d Hle). repeat split. lia.
  - assert (Hgt' : d > MAX_VIDEO_DURATION) by lia.
    rewrite (response_for_duration_reject d Hgt'). repeat split.
    + discriminate.
    + lia.
Qed.

(** ** What the handlers do to the world *)

(** X5: the status handler answers ok=True without any call and without
    touching the world; the lookup handler, whatever it answers or raises,
    calls the extractor exactly once with the search term as it stands,
    never calls the download tool and leaves the files as they are. *)
Theorem status_and_lookup_change_nothing {FS : Type} (ext : External FS)
    (res : Response) (search_term : string) (w : World FS) :
  V1Status_on_get res w = (Ok (set_media res [("ok", PBool true)]), w) /\
  snd (V1Lookup_on_get ext res search_term w) = extracted w search_term /\
  files (snd (V1Lookup_on_get ext res search_term w)) = files w /\
  downloads (calls (snd (V1Lookup_on_get ext res search_term w))) =
    downloads (calls w).
Proof.
  split; [reflexivity|].
  assert (H : snd (V1Lookup_on_get ext res search_term w) =
              extracted w search_term).
  { unfold V1Lookup_on_get, bind, ytdl_extract_info, lift, ret, raise,
      extracted.
    destruct (extract_info ext search_term) as [info|e]; [|reflexivity].
    destruct (first_entry info) as [choice|[k| | |m]]; try reflexivity.
    destruct (getitem choice "duration") as [dv|e]; [|reflexivity].
    destruct (as_int dv) as [d|e]; [|reflexivity].
    destruct (getitem choice "id") as [tok|e]; reflexivity. }
  rewrite H. repeat split.
  unfold extracted. cbn [calls]. rewrite downloads_app. cbn. lia.
Qed.

(** ** Errors and edge cases of the lookup handler *)

(** X6: when the extractor answers with a dictionary that has no entries
    key, as it does for a single video found directly, the lookup handler
    answers status 400 with "Nothing found for search term '<term>" (the
    quote is not closed), whatever the dictionary holds otherwise. *)
Theorem lookup_single_video_is_nothing_found {FS : Type} (ext : External FS)
    (res : Response) (search_term : string) (w : World FS)
    (info : InfoDict) :
  extract_info ext search_term = Ok info ->
  entries info = None ->
  fst (V1Lookup_on_get ext res search_term w) =
    Ok {| media :=
            Some [ ("ok", PBool false);
                   ("reason",
                     PStr ("Nothing found for search term '"
                           ++ search_term)) ];
          status := "400 Bad Request" |}.
Proof.
  intros Hx He.
  unfold V1Lookup_on_get, bind, ytdl_extract_info, first_entry.
  rewrite Hx, He. reflexivity.
Qed.

Lemma lookup_single_video_is_nothing_found_witness :
  fst (V1Lookup_on_get Demo.jukebox new_response "https://youtu.be/abc"
         (Demo.empty [])) =
    Ok {| media :=
            Some [ ("ok", PBool false);
                   ("reason",
                     PStr ("Nothing found for search term '"
                           ++ "https://youtu.be/abc")) ];
          status := "400 Bad Request" |}.
Proof.
  apply (lookup_single_video_is_nothing_found Demo.jukebox new_response
           "https://youtu.be/abc" (Demo.empty []) (Demo.video "abc" 100));
    reflexivity.
Defined.

(** X7: an exception of the extractor leaves the lookup handler as it is,
    also a [KeyError]: the extraction is made outside the try block.  No
    body is set. *)
Theorem lookup_extractor_error_propagates {FS : Type} (ext : External FS)
    (res : Response) (search_term : string) (w : World FS) (e : exn) :
  extract_info ext search_term = Raise e ->
  V1Lookup_on_get ext res search_term w = (Raise e, extracted w search_term).
Proof.
  intros Hx. unfold V1Lookup_on_get, bind, ytdl_extract_info, extracted.
  rewrite Hx. reflexivity.
Qed.

Lemma lookup_extractor_error_propagates_witness :
  V1Lookup_on_get Demo.jukebox new_response "unknown" (Demo.empty []) =
    (Raise (ExternalError "no such video"),
     extracted (Demo.empty []) "unknown").
Proof.
  apply (lookup_extractor_error_propagates Demo.jukebox new_response
           "unknown" (Demo.empty []) (ExternalError "no such video")).
  reflexivity.
Defined.

(** X8: when the duration of the first entry is missing, [None] or a
    string, the lookup handler raises, [KeyError] for the missing key and
    [TypeError] for [None] or a string, and sets no body, whether or not
    the entry has an id. *)
Theorem lookup_unusable_duration_raises {FS : Type}
    (ext : External FS) (res : Response) (search_term : string)
    (w : World FS) (info : InfoDict) (choice : dict scalar)
    (rest : list (dict scalar)) :
  extract_info ext search_term = Ok info ->
  entries info = Some (choice :: rest) ->
  lookup choice "duration" = None \/
  lookup choice "duration" = Some SNone \/
  (exists s, lookup choice "duration" = Some (SStr s)) ->
  fst (V1Lookup_on_get ext res search_term w) =
    Raise (match lookup choice "duration" with
           | None => KeyError "duration"
           | Some _ => TypeError
           end).
Proof.
  intros Hx He Hd.
  unfold V1Lookup_on_get, bind, ytdl_extract_info, first_entry, lift.
  rewrite Hx, He. cbn [first]. unfold getitem.
  destruct Hd as [Hd|[Hd|[s Hd]]]; rewrite Hd; reflexivity.
Qed.

Lemma lookup_unusable_duration_raises_witness :
  fst (V1Lookup_on_get Edge.jukebox new_response "live" (Demo.empty [])) =
    Raise (match lookup Edge.live "duration" with
           | None => KeyError "duration"
           | Some _ => TypeError
           end).
Proof.
  apply (lookup_unusable_duration_raises Edge.jukebox new_response
           "live" (Demo.empty []) (Demo.results [Edge.live]) Edge.live []);
    try reflexivity.
  right. left. reflexivity.
Defined.

(** X9: when the first entry has an integer duration and no id the lookup
    handler raises [KeyError] for the id, also when the duration exceeds the
    maximum: no "too long" answer is given. *)
Theorem lookup_without_id_raises {FS : Type} (ext : External FS)
    (res : Response) (search_term : string) (w : World FS)
    (info : InfoDict) (choice : dict scalar) (rest : list (dict scalar))
    (d : Z) :
  extract_info ext search_term = Ok info ->
  entries info = Some (choice :: rest) ->
  lookup choice "duration" = Some (SInt d) ->
  lookup choice "id" = None ->
  fst (V1Lookup_on_get ext res search_term w) = Raise (KeyError "id").
Proof.
  intros Hx He Hd Hid.
  unfold V1Lookup_on_get, bind, ytdl_extract_info, first_entry, lift.
  rewrite Hx, He. cbn [first]. unfold getitem. rewrite Hd. cbn [as_int].
  rewrite Hid. reflexivity.
Qed.

Lemma lookup_without_id_raises_witness :
  fst (V1Lookup_on_get Edge.jukebox new_response "anonymous" (Demo.empty []))
    = Raise (KeyError "id").
Proof.
  apply (lookup_without_id_raises Edge.jukebox new_response "anonymous"
           (Demo.empty []) (Demo.results [Edge.anonymous]) Edge.anonymous []
           1200); reflexivity.
Defined.

(** X10: the lookup handler looks at the first entry alone: two extraction
    results with the same first entry get the same answer, whatever the
    entries after it, the other keys of the result, the files and the calls
    made before. *)
Theorem lookup_depends_on_first_entry_only {FS FS' : Type}
    (ext : External FS) (ext' : External FS') (res : Response)
    (search_term search_term' : string) (w : World FS) (w' : World FS')
    (info info' : InfoDict) (choice : dict scalar)
    (rest rest' : list (dict scalar)) :
  extract_info ext search_term = Ok info ->
  extract_info ext' search_term' = Ok info' ->
  entries info = Some (choice :: rest) ->
  entries info' = Some (choice :: rest') ->
  fst (V1Lookup_on_get ext res search_term w) =
  fst (V1Lookup_on_get ext' res search_term' w').
Proof.
  intros Hx Hx' He He'.
  unfold V1Lookup_on_get, bind, ytdl_extract_info, first_entry, lift, ret.
  rewrite Hx, Hx', He, He'. cbn [first].
  destruct (getitem choice "duration") as [dv|e]; [|reflexivity].
  destruct (as_int dv) as [d|e]; [|reflexivity].
  destruct (getitem choice "id") as [tok|e]; reflexivity.
Qed.

Lemma lookup_depends_on_first_entry_only_witness :
  fst (V1Lookup_on_get Demo.jukebox new_response "concert" (Demo.empty [])) =
  fst (V1Lookup_on_get Edge.jukebox new_response "concert"
         (Demo.empty [audio_file_path (SStr "long")])).
Proof.
  apply (lookup_depends_on_first_entry_only Demo.jukebox Edge.jukebox
           new_response "concert" "concert" (Demo.empty [])
           (Demo.empty [audio_file_path (SStr "long")])
           (Demo.results [Demo.concert])
           (Demo.results [Demo.concert; Demo.rickroll])
           Demo.concert [] [Demo.rickroll]); reflexivity.
Defined.

(** A table built over a list of keys holds, for a key of the list, the
    value computed for it, and nothing for any other key. *)
Lemma lookup_table {V : Type} (f : string -> V) (ks : list string)
    (k : string) :
  lookup (map (fun k' => (k', f k')) ks) k =
    if existsb (String.eqb k) ks then Some (f k) else None.
Proof.
  induction ks as [|k' ks IH]; [reflexivity|].
  cbn [map lookup existsb]. rewrite (String.eqb_sym k k').
  destruct (String.eqb_spec k' k) as [->|Hne]; [reflexivity|exact IH].
Qed.

(** X11: the video_info of a lookup answer has exactly the ten keys
    alt_title, artist, creator, description, title, track, uploader,
    webpage_url, viewcount and duration, in this order; each holds the value
    of the entry for this key, [None] when the entry lacks it, and the
    duration is the one that was checked.  No other field of the entry is
    passed on. *)
Theorem lookup_video_info_fields {FS : Type} (ext : External FS)
    (res : Response) (search_term : string) (w : World FS)
    (info : InfoDict) (choice : dict scalar) (rest : list (dict scalar))
    (d : Z) (token : scalar) :
  extract_info ext search_term = Ok info ->
  entries info = Some (choice :: rest) ->
  getitem choice "duration" = Ok (SInt d) ->
  getitem choice "id" = Ok token ->
  exists body video_info,
    fst (V1Lookup_on_get ext res search_term w) = Ok (set_media res body) /\
    lookup body "video_info" = Some (PDict video_info) /\
    keys video_info =
      [ "alt_title"; "artist"; "creator"; "description"; "title"; "track";
        "uploader"; "webpage_url"; "viewcount"; "duration" ] /\
    lookup video_info "duration" = Some (SInt d) /\
    (forall k, In k (keys video_info) ->
               lookup video_info k = Some (get choice k)) /\
    (forall k, In k (keys video_info) -> lookup choice k = None ->
               lookup video_info k = Some SNone) /\
    (forall k, ~ In k (keys video_info) -> lookup video_info k = None).
Proof.
  intros Hx He Hd Hid.
  rewrite (lookup_found ext res search_term w info choice rest d token
             Hx He Hd Hid).
  exists (response_for_duration d
            ++ [ ("token", PScalar token);
                 ("video_info",
                   PDict (map (fun k => (k, get choice k))
                            video_info_keys)) ])%list.
  exists (map (fun k => (k, get choice k)) video_info_keys).
  assert (Hin : forall k, In k video_info_keys <->
                          existsb (String.eqb k) video_info_keys = true).
  { intros k. rewrite existsb_exists. split.
    - intros H. exists k. split; [exact H|apply String.eqb_refl].
    - intros [k' [H Heq]]. apply String.eqb_eq in Heq. now subst. }
  assert (Hkeys : keys (map (fun k => (k, get choice k)) video_info_keys)
                  = video_info_keys) by reflexivity.
  split; [reflexivity|]. split.
  { destruct (Z_le_gt_dec d MAX_VIDEO_DURATION) as [Hle|Hgt].
    - now rewrite (response_for_duration_accept d Hle).
    - now rewrite (response_for_duration_reject d Hgt). }
  split; [reflexivity|]. split.
  { rewrite lookup_table. cbn. unfold get, getitem in *.
    destruct (lookup choice "duration"); [|discriminate].
    now injection Hd as ->. }
  rewrite Hkeys. repeat split.
  - intros k Hk. rewrite lookup_table.
    apply Hin in Hk. now rewrite Hk.
  - intros k Hk Hnone. rewrite lookup_table.
    apply Hin in Hk. rewrite Hk. unfold get. now rewrite Hnone.
  - intros k Hk. rewrite lookup_table.
    destruct (existsb (String.eqb k) video_info_keys) eqn:E; [|reflexivity].
    now apply Hin in E.
Qed.

Lemma lookup_video_info_fields_witness :
  exists body video_info,
    fst (V1Lookup_on_get Demo.jukebox new_response "never gonna give you up"
           (Demo.empty [])) = Ok (set_media new_response body) /\
    lookup body "video_info" = Some (PDict video_info) /\
    keys video_info =
      [ "alt_title"; "artist"; "creator"; "description"; "title"; "track";
        "uploader"; "webpage_url"; "viewcount"; "duration" ] /\
    lookup video_info "duration" = Some (SInt 213) /\
    (forall k, In k (keys video_info) ->
               lookup video_info k = Some (get Demo.rickroll k)) /\
    (forall k, In k (keys video_info) -> lookup Demo.rickroll k = None ->
               lookup video_info k = Some SNone) /\
    (forall k, ~ In k (keys video_info) -> lookup video_info k = None).
Proof.
  apply (lookup_video_info_fields Demo.jukebox new_response
           "never gonna give you up" (Demo.empty [])
           (Demo.results [Demo.rickroll]) Demo.rickroll [] 213
           (SStr "dQw4w9WgXcQ")); reflexivity.
Defined.

(** ** Errors and edge cases of the enqueue handler *)

(** X12: an exception of the extractor leaves the enqueue handler as it is;
    the cache is not looked at, nothing is downloaded and no body is set. *)
Theorem enqueue_extractor_error_propagates {FS : Type} (ext : External FS)
    (res : Response) (video_id : string) (w : World FS) (e : exn) :
  extract_info ext ("https://youtu.be/" ++ video_id) = Raise e ->
  V1Enqueue_on_get ext res video_id w =
    (Raise e, extracted w ("https://youtu.be/" ++ video_id)).
Proof.
  intros Hx. unfold V1Enqueue_on_get, bind, ytdl_extract_info, extracted.
  rewrite Hx. reflexivity.
Qed.

Lemma enqueue_extractor_error_propagates_witness :
  V1Enqueue_on_get Demo.jukebox new_response "unknown" (Demo.empty []) =
    (Raise (ExternalError "no such video"),
     extracted (Demo.empty []) "https://youtu.be/unknown").
Proof.
  apply (enqueue_extractor_error_propagates Demo.jukebox new_response
           "unknown" (Demo.empty []) (ExternalError "no such video")).
  reflexivity.
Defined.

(** X13: when the extraction result has no id the enqueue handler raises
    [KeyError] for it right after the extraction, whatever the duration and
    the files are. *)
Theorem enqueue_without_id_raises {FS : Type} (ext : External FS)
    (res : Response) (video_id : string) (w : World FS) (info : InfoDict) :
  extract_info ext ("https://youtu.be/" ++ video_id) = Ok info ->
  lookup (fields info) "id" = None ->
  V1Enqueue_on_get ext res video_id w =
    (Raise (KeyError "id"), extracted w ("https://youtu.be/" ++ video_id)).
Proof.
  intros Hx Hid.
  unfold V1Enqueue_on_get, bind, ytdl_extract_info, lift, getitem, extracted.
  rewrite Hx, Hid. reflexivity.
Qed.

Lemma enqueue_without_id_raises_witness :
  V1Enqueue_on_get Edge.jukebox new_response "anonymous" (Demo.empty []) =
    (Raise (KeyError "id"),
     extracted (Demo.empty []) "https://youtu.be/anonymous").
Proof.
  apply (enqueue_without_id_raises Edge.jukebox new_response "anonymous"
           (Demo.empty []) {| fields := Edge.anonymous; entries := None |});
    reflexivity.
Defined.

(** X14: for a video that is not cached and whose duration is missing,
    [None] or a string, the enqueue handler raises, [KeyError] for the
    missing key and [TypeError] for [None] or a string; nothing is
    downloaded and the files stay as they are. *)
Theorem enqueue_unusable_duration_raises {FS : Type}
    (ext : External FS) (res : Response) (video_id : string) (w : World FS)
    (info : InfoDict) (id : scalar) :
  extract_info ext ("https://youtu.be/" ++ video_id) = Ok info ->
  getitem (fields info) "id" = Ok id ->
  path_exists ext (files w) (audio_file_path id) = false ->
  lookup (fields info) "duration" = None \/
  lookup (fields info) "duration" = Some SNone \/
  (exists s, lookup (fields info) "duration" = Some (SStr s)) ->
  V1Enqueue_on_get ext res video_id w =
    (Raise (match lookup (fields info) "duration" with
            | None => KeyError "duration"
            | Some _ => TypeError
            end),
     extracted w ("https://youtu.be/" ++ video_id)).
Proof.
  intros Hx Hid Hc Hd.
  unfold V1Enqueue_on_get, bind, ytdl_extract_info, exists_, lift, extracted.
  rewrite Hx, Hid. cbn [files calls]. rewrite Hc. unfold getitem.
  destruct Hd as [Hd|[Hd|[s Hd]]]; rewrite Hd; reflexivity.
Qed.

Lemma enqueue_unusable_duration_raises_witness :
  V1Enqueue_on_get Edge.jukebox new_response "live" (Demo.empty []) =
    (Raise (match lookup Edge.live "duration" with
            | None => KeyError "duration"
            | Some _ => TypeError
            end),
     extracted (Demo.empty []) "https://youtu.be/live").
Proof.
  apply (enqueue_unusable_duration_raises Edge.jukebox new_response
           "live" (Demo.empty []) {| fields := Edge.live; entries := None |}
           (SStr "live")); try reflexivity.
  right. left. reflexivity.
Defined.

(** X15: a video whose extracted duration exceeds the maximum is never
    downloaded: whether it is cached or not, and whether it has an id or
    not, the enqueue handler leaves the files as they are and makes no call
    but the extraction. *)
Theorem enqueue_never_downloads_too_long {FS : Type} (ext : External FS)
    (res : Response) (video_id : string) (w : World FS)
    (info : InfoDict) (d : Z) :
  extract_info ext ("https://youtu.be/" ++ video_id) = Ok info ->
  getitem (fields info) "duration" = Ok (SInt d) ->
  d > MAX_VIDEO_DURATION ->
  snd (V1Enqueue_on_get ext res video_id w) =
    extracted w ("https://youtu.be/" ++ video_id) /\
  files (snd (V1Enqueue_on_get ext res video_id w)) = files w /\
  downloads (calls (snd (V1Enqueue_on_get ext res video_id w))) =
    downloads (calls w).
Proof.
  intros Hx Hd Hgt.
  assert (H : snd (V1Enqueue_on_get ext res video_id w) =
              extracted w ("https://youtu.be/" ++ video_id)).
  { unfold V1Enqueue_on_get, bind, ytdl_extract_info, exists_, lift, ret,
      extracted.
    rewrite Hx.
    destruct (getitem (fields info) "id") as [id|e]; [|reflexivity].
    cbn [files calls].
    destruct (path_exists ext (files w) (audio_file_path id));
      [reflexivity|].
    rewrite Hd. cbn [as_int].
    rewrite (response_for_duration_reject d Hgt). reflexivity. }
  rewrite H. repeat split.
  unfold extracted. cbn [calls]. rewrite downloads_app. cbn. lia.
Qed.

Lemma enqueue_never_downloads_too_long_witness :
  snd (V1Enqueue_on_get Edge.jukebox new_response "anonymous"
         (Demo.empty [])) =
    extracted (Demo.empty []) "https://youtu.be/anonymous" /\
  files (snd (V1Enqueue_on_get Edge.jukebox new_response "anonymous"
                (Demo.empty []))) = files (Demo.empty []) /\
  downloads (calls (snd (V1Enqueue_on_get Edge.jukebox new_response
                           "anonymous" (Demo.empty [])))) =
    downloads (calls (Demo.empty [])).
Proof.
  apply (enqueue_never_downloads_too_long Edge.jukebox new_response
           "anonymous" (Demo.empty [])
           {| fields := Edge.anonymous; entries := None |} 1200);
    reflexivity.
Defined.


(** X17: for a video that is not cached and whose duration is accepted the
    answer is decided by the download: when it raises, the exception leaves
    the handler, no ok body is set and the files stay as the tool left them;
    when it succeeds the answer is ok=True.  The URL downloaded is built
    from the extracted id, not from the requested one. *)
Theorem enqueue_download_outcome {FS : Type} (ext : External FS)
    (res : Response) (video_id : string) (w : World FS)
    (info : InfoDict) (id : scalar) (d : Z) (r : result unit) (fs' : FS) :
  extract_info ext ("https://youtu.be/" ++ video_id) = Ok info ->
  getitem (fields info) "id" = Ok id ->
  path_exists ext (files w) (audio_file_path id) = false ->
  getitem (fields info) "duration" = Ok (SInt d) ->
  d <= MAX_VIDEO_DURATION ->
  download ext ["https://youtu.be/" ++ str id] (files w) = (r, fs') ->
  fst (V1Enqueue_on_get ext res video_id w) =
    match r with
    | Ok _ => Ok (set_media res [("ok", PBool true)])
    | Raise e => Raise e
    end /\
  files (snd (V1Enqueue_on_get ext res video_id w)) = fs' /\
  downloads (calls (snd (V1Enqueue_on_get ext res video_id w))) =
    S (downloads (calls w)).
Proof.
  intros Hx Hid Hc Hd Hle Hdl.
  rewrite (enqueue_downloads ext res video_id w info id d r fs'
             Hx Hid Hc Hd Hle Hdl).
  cbn [fst snd files calls]. repeat split.
  rewrite downloads_app. cbn. lia.
Qed.

Lemma enqueue_download_outcome_witness :
  fst (V1Enqueue_on_get Edge.broken new_response "abc" (Demo.empty [])) =
    match Raise (ExternalError "download failed") : result unit with
    | Ok _ => Ok (set_media new_response [("ok", PBool true)])
    | Raise e => Raise e
    end /\
  files (snd (V1Enqueue_on_get Edge.broken new_response "abc"
                (Demo.empty []))) =
    [PathDiv (PathOf "./cache/audio") "abc.part"] /\
  downloads (calls (snd (V1Enqueue_on_get Edge.broken new_response "abc"
                           (Demo.empty [])))) =
    S (downloads (calls (Demo.empty []))).
Proof.
  apply (enqueue_download_outcome Edge.broken new_response "abc"
           (Demo.empty []) (Demo.video "abc" 100) (SStr "abc") 100
           (Raise (ExternalError "download failed"))
           [PathDiv (PathOf "./cache/audio") "abc.part"]);
    try reflexivity.
  vm_compute. discriminate.
Defined.

(** ** Requests served one after the other *)

(** Once the cache file is there, further requests only extract. *)
Lemma enqueue_times_cached {FS : Type} (ext : External FS)
    (video_id : string) (info : InfoDict) (id : scalar) (n : nat) :
  extract_info ext ("https://youtu.be/" ++ video_id) = Ok info ->
  getitem (fields info) "id" = Ok id ->
  forall w : World FS,
    path_exists ext (files w) (audio_file_path id) = true ->
    fst (enqueue_times ext n video_id w) =
      repeat (Ok (set_media new_response [("ok", PBool true)])) n /\
    files (snd (enqueue_times ext n video_id w)) = files w /\
    downloads (calls (snd (enqueue_times ext n video_id w))) =
      downloads (calls w).
Proof.
  intros Hx Hid. induction n as [|n IH]; intros w Hc; [now repeat split|].
  cbn [enqueue_times].
  rewrite (enqueue_cached ext new_response video_id w info id Hx Hid Hc).
  specialize (IH (extracted w ("https://youtu.be/" ++ video_id)) Hc).
  destruct (enqueue_times ext n video_id
              (extracted w ("https://youtu.be/" ++ video_id))) as [rs w''].
  cbn [fst snd] in *. destruct IH as [-> [-> ->]]. repeat split.
  unfold extracted. cbn [calls]. rewrite downloads_app. cbn. lia.
Qed.

(** X18: however many enqueue requests for the same id are served one after
    the other, for a video that is not cached, whose duration is accepted
    and whose download succeeds and leaves the cache file, every request is
    answered ok=True, the download tool is called once in all, and the
    files are those the one download left. *)
Theorem repeated_enqueues_download_once {FS : Type} (ext : External FS)
    (video_id : string) (w : World FS) (info : InfoDict) (id : scalar)
    (d : Z) (fs' : FS) (n : nat) :
  extract_info ext ("https://youtu.be/" ++ video_id) = Ok info ->
  getitem (fields info) "id" = Ok id ->
  path_exists ext (files w) (audio_file_path id) = false ->
  getitem (fields info) "duration" = Ok (SInt d) ->
  d <= MAX_VIDEO_DURATION ->
  download ext ["https://youtu.be/" ++ str id] (files w) = (Ok tt, fs') ->
  path_exists ext fs' (audio_file_path id) = true ->
  fst (enqueue_times ext (S n) video_id w) =
    repeat (Ok (set_media new_response [("ok", PBool true)])) (S n) /\
  files (snd (enqueue_times ext (S n) video_id w)) = fs' /\
  downloads (calls (snd (enqueue_times ext (S n) video_id w))) =
    S (downloads (calls w)).
Proof.
  intros Hx Hid Hc Hd Hle Hdl Hc'.
  cbn [enqueue_times].
  rewrite (enqueue_downloads ext new_response video_id w info id d (Ok tt)
             fs' Hx Hid Hc Hd Hle Hdl).
  match goal with
  | |- context [enqueue_times ext n video_id ?w1] =>
      destruct (enqueue_times_cached ext video_id info id n Hx Hid w1 Hc')
        as [Hr [Hf Hn]];
      destruct (enqueue_times ext n video_id w1) as [rs w'']
  end.
  cbn [fst snd files calls] in *. rewrite Hr, Hf, Hn. repeat split.
  rewrite downloads_app. cbn. lia.
Qed.

Lemma repeated_enqueues_download_once_witness :
  fst (enqueue_times Demo.jukebox 5 "abc" (Demo.empty [])) =
    repeat (Ok (set_media new_response [("ok", PBool true)])) 5 /\
  files (snd (enqueue_times Demo.jukebox 5 "abc" (Demo.empty []))) =
    [audio_file_path (SStr "abc")] /\
  downloads (calls (snd (enqueue_times Demo.jukebox 5 "abc"
                           (Demo.empty [])))) =
    S (downloads (calls (Demo.empty []))).
Proof.
  apply (repeated_enqueues_download_once Demo.jukebox "abc" (Demo.empty [])
           (Demo.video "abc" 100) (SStr "abc") 100
           [audio_file_path (SStr "abc")] 4); try reflexivity.
  vm_compute. discriminate.
Defined.

(** ** Overlapping requests, under every schedule *)

Section Schedules.

Context {FS : Type}.
Variable ext : External FS.

(** A step brings a thread nearer to its end. *)
Lemma step_remaining (t : thread) (w : World FS) :
  (remaining (fst (step ext t w)) <= pred (remaining t))%nat.
Proof.
  destruct t as [res v|res info id|res id|r]; cbn [step remaining pred].
  - unfold ytdl_extract_info.
    destruct (extract_info ext _) as [info|e]; [|cbn; lia].
    destruct (getitem (fields info) "id"); cbn; lia.
  - destruct (path_exists ext (files w) _); [cbn; lia|].
    destruct (getitem (fields info) "duration") as [dv|e]; [|cbn; lia].
    destruct (as_int dv) as [d|e]; [|cbn; lia].
    destruct (getitem (response_for_duration d) "ok") as [ok|e]; [|cbn; lia].
    destruct (negb (truthy ok)); cbn; lia.
  - unfold ytdl_download.
    destruct (download ext _ _) as [[u|e] fs']; cbn; lia.
  - cbn. lia.
Qed.

(** A step calls the download tool only from the state before the download,
    which it leaves for good. *)
Lemma step_pending (t : thread) (w : World FS) :
  (downloads (calls (snd (step ext t w))) + pending (fst (step ext t w))
   <= downloads (calls w) + pending t)%nat.
Proof.
  destruct t as [res v|res info id|res id|r]; cbn [step pending].
  - unfold ytdl_extract_info.
    destruct (extract_info ext _) as [info|e];
      [destruct (getitem (fields info) "id")|];
      cbn [fst snd calls pending]; rewrite downloads_app; cbn; lia.
  - destruct (path_exists ext (files w) _); [cbn; lia|].
    destruct (getitem (fields info) "duration") as [dv|e]; [|cbn; lia].
    destruct (as_int dv) as [d|e]; [|cbn; lia].
    destruct (getitem (response_for_duration d) "ok") as [ok|e]; [|cbn; lia].
    destruct (negb (truthy ok)); cbn; lia.
  - unfold ytdl_download.
    destruct (download ext _ _) as [[u|e] fs'];
      cbn [fst snd calls pending]; rewrite downloads_app; cbn; lia.
  - cbn. lia.
Qed.

Lemma interleave_remaining (schedule : list bool) :
  forall (a b : thread) (w : World FS),
    (remaining (fst (fst (interleave ext schedule a b w)))
     <= remaining a - turns false schedule)%nat /\
    (remaining (snd (fst (interleave ext schedule a b w)))
     <= remaining b - turns true schedule)%nat.
Proof.
  induction schedule as [|[|] rest IH]; intros a b w.
  - cbn. lia.
  - cbn [interleave]. pose proof (step_remaining b w) as Hs.
    destruct (step ext b w) as [b' w']. cbn [fst] in Hs.
    destruct (IH a b' w') as [Ha Hb]. unfold turns in *. cbn [count_occ].
    destruct (bool_dec true false) as [E|_]; [discriminate|].
    destruct (bool_dec true true) as [_|E]; [|now destruct E].
    split; lia.
  - cbn [interleave]. pose proof (step_remaining a w) as Hs.
    destruct (step ext a w) as [a' w']. cbn [fst] in Hs.
    destruct (IH a' b w') as [Ha Hb]. unfold turns in *. cbn [count_occ].
    destruct (bool_dec false true) as [E|_]; [discriminate|].
    destruct (bool_dec false false) as [_|E]; [|now destruct E].
    split; lia.
Qed.

Lemma interleave_pending (schedule : list bool) :
  forall (a b : thread) (w : World FS),
    (downloads (calls (snd (interleave ext schedule a b w)))
     + pending (fst (fst (interleave ext schedule a b w)))
     + pending (snd (fst (interleave ext schedule a b w)))
     <= downloads (calls w) + pending a + pending b)%nat.
Proof.
  induction schedule as [|[|] rest IH]; intros a b w.
  - cbn. lia.
  - cbn [interleave]. pose proof (step_pending b w) as Hs.
    destruct (step ext b w) as [b' w']. cbn [fst snd] in Hs.
    specialize (IH a b' w'). lia.
  - cbn [interleave]. pose proof (step_pending a w) as Hs.
    destruct (step ext a w) as [a' w']. cbn [fst snd] in Hs.
    specialize (IH a' b w'). lia.
Qed.

Lemma remaining_finished (t : thread) :
  remaining t = 0%nat -> finished t = true.
Proof. destruct t; cbn; [discriminate ..|reflexivity]. Qed.

End Schedules.

(** X19: under every schedule that gives each of two overlapping enqueue
    requests three turns or more, both requests come to their end, with an
    answer or an exception: no request waits for the other. *)
Theorem overlapping_enqueues_finish {FS : Type} (ext : External FS)
    (schedule : list bool) (res res' : Response)
    (video_id video_id' : string) (w : World FS) :
  (3 <= turns false schedule)%nat ->
  (3 <= turns true schedule)%nat ->
  finished (fst (fst (interleave ext schedule (Start res video_id)
                        (Start res' video_id') w))) = true /\
  finished (snd (fst (interleave ext schedule (Start res video_id)
                        (Start res' video_id') w))) = true.
Proof.
  intros Ha Hb.
  destruct (interleave_remaining ext schedule (Start res video_id)
              (Start res' video_id') w) as [H1 H2].
  cbn [remaining] in H1, H2.
  split; apply remaining_finished; lia.
Qed.

Lemma overlapping_enqueues_finish_witness :
  finished (fst (fst (interleave Demo.jukebox
                        [true; false; false; true; false; true]
                        (Start new_response "abc")
                        (Start new_response "long") (Demo.empty []))))
    = true /\
  finished (snd (fst (interleave Demo.jukebox
                        [true; false; false; true; false; true]
                        (Start new_response "abc")
                        (Start new_response "long") (Demo.empty []))))
    = true.
Proof.
  apply (overlapping_enqueues_finish Demo.jukebox
           [true; false; false; true; false; true]
           new_response new_response "abc" "long" (Demo.empty []));
    vm_compute; lia.
Defined.

(** X20: under every schedule two overlapping enqueue requests, for the same
    id or for different ones, call the download tool at most twice in all:
    a request never downloads more than once. *)
Theorem overlapping_enqueues_download_at_most_twice {FS : Type}
    (ext : External FS) (schedule : list bool) (res res' : Response)
    (video_id video_id' : string) (w : World FS) :
  (downloads (calls (snd (interleave ext schedule (Start res video_id)
                            (Start res' video_id') w)))
   <= downloads (calls w) + 2)%nat.
Proof.
  pose proof (interleave_pending ext schedule (Start res video_id)
                (Start res' video_id') w) as H.
  cbn [pending] in H. lia.
Qed.

(** ** The handlers compared *)

(** X21: for the same duration above the maximum the lookup handler and the
    enqueue handler (for a video that is not cached) give the same reason,
    but not the same status: 200 for the lookup, 400 for the enqueue. *)
Theorem lookup_and_enqueue_reject_alike {FS : Type} (ext : External FS)
    (search_term video_id : string) (w w' : World FS)
    (found info : InfoDict) (choice : dict scalar)
    (rest : list (dict scalar)) (token id : scalar) (d : Z) :
  extract_info ext search_term = Ok found ->
  entries found = Some (choice :: rest) ->
  getitem choice "duration" = Ok (SInt d) ->
  getitem choice "id" = Ok token ->
  extract_info ext ("https://youtu.be/" ++ video_id) = Ok info ->
  getitem (fields info) "id" = Ok id ->
  path_exists ext (files w') (audio_file_path id) = false ->
  getitem (fields info) "duration" = Ok (SInt d) ->
  d > MAX_VIDEO_DURATION ->
  exists looked enqueued,
    fst (V1Lookup_on_get ext new_response search_term w) = Ok looked /\
    fst (V1Enqueue_on_get ext new_response video_id w') = Ok enqueued /\
    ok_of looked = Some (PBool false) /\
    ok_of enqueued = Some (PBool false) /\
    reason_of looked = reason_of enqueued /\
    reason_of looked <> None /\
    status looked = HTTP_200 /\
    status enqueued = HTTP_400.
Proof.
  intros Hx He Hd Htok Hx' Hid Hc Hd' Hgt.
  rewrite (lookup_found ext new_response search_term w found choice rest d
             token Hx He Hd Htok).
  rewrite (enqueue_rejected ext new_response video_id w' info id d
             Hx' Hid Hc Hd' Hgt).
  do 2 eexists. split; [reflexivity|]. split; [reflexivity|].
  unfold ok_of, reason_of. cbn [set_status set_media media status fst].
  rewrite (response_for_duration_reject d Hgt).
  repeat split. discriminate.
Qed.

Lemma lookup_and_enqueue_reject_alike_witness :
  exists looked enqueued,
    fst (V1Lookup_on_get Demo.jukebox new_response "concert"
           (Demo.empty [])) = Ok looked /\
    fst (V1Enqueue_on_get Demo.jukebox new_response "long"
           (Demo.empty [])) = Ok enqueued /\
    ok_of looked = Some (PBool false) /\
    ok_of enqueued = Some (PBool false) /\
    reason_of looked = reason_of enqueued /\
    reason_of looked <> None /\
    status looked = HTTP_200 /\
    status enqueued = HTTP_400.
Proof.
  apply (lookup_and_enqueue_reject_alike Demo.jukebox "concert" "long"
           (Demo.empty []) (Demo.empty [])
           (Demo.results [Demo.concert]) (Demo.video "long" 1200)
           Demo.concert [] (SStr "long") (SStr "long") 1200);
    reflexivity.
Defined.

(** X22: the enqueue handler uses the requested id for the extraction
    alone: two requested ids for which the extractor gives the same result
    get the same answer and leave the same files.  The cache file and the
    download are those of the extracted id. *)
Theorem enqueue_depends_on_extraction_only {FS : Type} (ext : External FS)
    (res : Response) (video_id video_id' : string) (w : World FS) :
  extract_info ext ("https://youtu.be/" ++ video_id) =
  extract_info ext ("https://youtu.be/" ++ video_id') ->
  fst (V1Enqueue_on_get ext res video_id w) =
  fst (V1Enqueue_on_get ext res video_id' w) /\
  files (snd (V1Enqueue_on_get ext res video_id w)) =
  files (snd (V1Enqueue_on_get ext res video_id' w)).
Proof.
  intros Hx.
  unfold V1Enqueue_on_get, bind, ytdl_extract_info, ytdl_download, exists_,
    lift, ret.
  rewrite Hx.
  destruct (extract_info ext ("https://youtu.be/" ++ video_id'))
    as [info|e]; [|now split].
  destruct (getitem (fields info) "id") as [id|e]; [|now split].
  cbn [files calls].
  destruct (path_exists ext (files w) (audio_file_path id)); [now split|].
  destruct (getitem (fields info) "duration") as [dv|e]; [|now split].
  destruct (as_int dv) as [d|e]; [|now split].
  destruct (getitem (response_for_duration d) "ok") as [ok|e]; [|now split].
  destruct (negb (truthy ok)); [now split|]. cbn [files calls].
  destruct (download ext _ (files w)) as [[u|e] fs']; now split.
Qed.

Lemma enqueue_depends_on_extraction_only_witness :
  fst (V1Enqueue_on_get Edge.jukebox new_response "abc" (Demo.empty [])) =
  fst (V1Enqueue_on_get Edge.jukebox new_response "alias" (Demo.empty [])) /\
  files (snd (V1Enqueue_on_get Edge.jukebox new_response "abc"
                (Demo.empty []))) =
  files (snd (V1Enqueue_on_get Edge.jukebox new_response "alias"
                (Demo.empty []))).
Proof.
  apply (enqueue_depends_on_extraction_only Edge.jukebox new_response
           "abc" "alias" (Demo.empty [])).
  reflexivity.
Defined.
